(** * cc-heatmap: the proof-log parser and the aggregation pass of [cli.mjs]

    A shallow embedding of the parts of [cli.mjs] that carry state: the
    line-by-line proof-log parser, the construction of the date range, the
    loop that loads one log file per day, the chronological pass that computes
    totals and streaks, the choice of the top project and the grid of day
    cells.

    Conventions of the model.

    - A JavaScript string is the list of its UTF-16 code units ([jsstring]).
    - A [Date] is always set to local noon by the script and is only ever moved
      by whole days, so it is represented by its day number: the number of days
      since 1970-01-01 (a Thursday).  [toYMD] names a day by a ten-character
      ISO string; for four-digit years these strings compare exactly as the
      days do, and the model uses the day number itself as the key.  (The
      script reads the key off the UTC clock; the model takes local noon to
      fall on the same UTC day.)
    - Minute counts are exact naturals; the script's numbers are exact below
      2^53.
    - A JavaScript object used as a map from labels to numbers is the list of
      its own entries in the order [Object.entries] enumerates them.  Labels
      that name a property inherited from [Object.prototype] are outside the
      model ([plainLabel]). *)

From Stdlib Require Import ZArith NArith List Lia Bool String Ascii.
From stdpp Require Import base option list gmap.
Import ListNotations.

Local Open Scope Z_scope.

(** ** JavaScript strings *)

Module Js.

Definition jsstring : Type := list N.

(** Code units of an ASCII literal. *)
Definition lit (s : string) : jsstring :=
  List.map (fun a => N.of_nat (nat_of_ascii a)) (list_ascii_of_string s).

(** [WhiteSpace] and [LineTerminator] code points, the set [trim] strips. *)
Definition isSpace (c : N) : bool :=
  ((9 <=? c) && (c <=? 13) || (c =? 32) || (c =? 160) || (c =? 5760)
   || (8192 <=? c) && (c <=? 8202) || (c =? 8232) || (c =? 8233)
   || (c =? 8239) || (c =? 8287) || (c =? 12288) || (c =? 65279))%N.

(** Line terminators: the code units the regular-expression dot refuses. *)
Definition isLineTerminator (c : N) : bool :=
  ((c =? 10) || (c =? 13) || (c =? 8232) || (c =? 8233))%N.

Definition isDot (c : N) : bool := negb (isLineTerminator c).

(** [\d] *)
Definition isDigit (c : N) : bool := ((48 <=? c) && (c <=? 57))%N.

Fixpoint dropSpaces (s : jsstring) : jsstring :=
  match s with
  | c :: s' => if isSpace c then dropSpaces s' else s
  | [] => []
  end.

(** [String.prototype.trim] *)
Definition trim (s : jsstring) : jsstring :=
  rev (dropSpaces (rev (dropSpaces s))).

(** [content.split('\n')]: the pieces between line feeds; never empty. *)
Fixpoint split_nl (s : jsstring) : list jsstring :=
  match s with
  | [] => [[]]
  | c :: s' =>
      if (c =? 10)%N then [] :: split_nl s'
      else match split_nl s' with
           | l :: ls => (c :: l) :: ls
           | [] => [[c]]
           end
  end.

(** The text whose lines are the given ones: [lines.join('\n')]. *)
Fixpoint join_nl (ls : list jsstring) : jsstring :=
  match ls with
  | [] => []
  | [l] => l
  | l :: ls' => l ++ 10%N :: join_nl ls'
  end.

(** [s.startsWith(p)], returning what follows the prefix. *)
Fixpoint stripPrefix (p s : jsstring) : option jsstring :=
  match p, s with
  | [], _ => Some s
  | a :: p', b :: s' => if (a =? b)%N then stripPrefix p' s' else None
  | _ :: _, [] => None
  end.

Fixpoint takeDigits (s : jsstring) : jsstring :=
  match s with
  | c :: s' => if isDigit c then c :: takeDigits s' else []
  | [] => []
  end.

Fixpoint dropDigits (s : jsstring) : jsstring :=
  match s with
  | c :: s' => if isDigit c then dropDigits s' else s
  | [] => []
  end.

(** The longest prefix the dot can run over. *)
Fixpoint takeDots (s : jsstring) : jsstring :=
  match s with
  | c :: s' => if isDot c then c :: takeDots s' else []
  | [] => []
  end.

(** [parseInt(s, 10)] on a string of decimal digits. *)
Definition parseInt (s : jsstring) : N :=
  fold_left (fun acc c => (10 * acc + (c - 48))%N) s 0%N.

End Js.

Import Js.

(** ** The proof-log parser *)

Module Parser.

(** One element of a fixed-shape pattern: a literal code unit or [\d]. *)
Inductive atom : Type :=
| Lit (c : N)
| Digit.

Definition atomMatches (a : atom) (c : N) : bool :=
  match a with
  | Lit x => (x =? c)%N
  | Digit => isDigit c
  end.

(** Anchored match of a fixed-shape pattern against the start of a line. *)
Fixpoint matchAtoms (p : list atom) (s : jsstring) : bool :=
  match p, s with
  | [], _ => true
  | a :: p', c :: s' => atomMatches a c && matchAtoms p' s'
  | _ :: _, [] => false
  end.

Definition lits (s : string) : list atom := List.map Lit (lit s).

(** [/^### (\d{4}-\d{2}-\d{2}) (\d{2}:\d{2})-(\d{2}:\d{2}) JST/] *)
Definition SESSION_HEADER : list atom :=
  lits "### "
  ++ [Digit; Digit; Digit; Digit] ++ lits "-" ++ [Digit; Digit]
  ++ lits "-" ++ [Digit; Digit]
  ++ lits " " ++ [Digit; Digit] ++ lits ":" ++ [Digit; Digit]
  ++ lits "-" ++ [Digit; Digit] ++ lits ":" ++ [Digit; Digit]
  ++ lits " JST".

(** [SESSION_HEADER.exec(line)]: on a match, capture group 1 (the date). *)
Definition execHeader (line : jsstring) : option jsstring :=
  if matchAtoms SESSION_HEADER line then Some (take 10 (drop 4 line)) else None.

(** The hiragana and full-width code units of the two item markers. *)
Definition prefixItsu : jsstring :=
  [45; 32; 12356; 12388; 58; 32]%N.          (* "- いつ: " *)
Definition prefixDokode : jsstring :=
  [45; 32; 12393; 12371; 12391; 58; 32]%N.   (* "- どこで: " *)
Definition jstParen : jsstring := [74; 83; 84; 65288]%N.   (* "JST（" *)
Definition funParen : jsstring := [20998; 65289]%N.        (* "分）" *)

(** The tail [JST（(\d+)分）] tried at one position; the digits on success. *)
Definition matchMinutes (s : jsstring) : option jsstring :=
  match stripPrefix jstParen s with
  | None => None
  | Some r =>
      match takeDigits r with
      | [] => None
      | ds => match stripPrefix funParen (dropDigits r) with
              | Some _ => Some ds
              | None => None
              end
      end
  end.

(** The greedy [.+] gives back one code unit at a time: the tail is tried
    after [n] units, then after [n - 1], down to one. *)
Fixpoint backtrack (n : nat) (rest : jsstring) : option jsstring :=
  match n with
  | O => None
  | S k =>
      match matchMinutes (drop n rest) with
      | Some ds => Some ds
      | None => backtrack k rest
      end
  end.

(** [/^- いつ: .+JST（(\d+)分）/]: on a match, capture group 1. *)
Definition execDuration (line : jsstring) : option jsstring :=
  match stripPrefix prefixItsu line with
  | None => None
  | Some rest => backtrack (length (takeDots rest)) rest
  end.

(** [/^- どこで: (.+)$/]: on a match, capture group 1. *)
Definition execWhere (line : jsstring) : option jsstring :=
  match stripPrefix prefixDokode line with
  | None => None
  | Some rest =>
      match rest with
      | [] => None
      | _ => if forallb isDot rest then Some rest else None
      end
  end.

Record Session : Type := mkSession {
  date : jsstring;
  durationMin : N;
  project : option jsstring
}.

(** [if (current) sessions.push(current)] *)
Definition pushCurrent (current : option Session) (sessions : list Session)
  : list Session :=
  match current with
  | Some c => sessions ++ [c]
  | None => sessions
  end.

(** The body of the loop over the lines, on the state
    [(current, sessions)]. *)
Definition parseLine (st : option Session * list Session) (raw : jsstring)
  : option Session * list Session :=
  let '(current, sessions) := st in
  let line := trim raw in
  match execHeader line with
  | Some d =>
      (Some (mkSession d 0%N None), pushCurrent current sessions)
  | None =>
      match current with
      | None => (None, sessions)
      | Some c =>
          match execDuration line with
          | Some ds =>
              (Some (mkSession (date c) (parseInt ds) (project c)), sessions)
          | None =>
              match execWhere line with
              | Some w =>
                  (Some (mkSession (date c) (durationMin c) (Some (trim w))),
                   sessions)
              | None => (current, sessions)
              end
          end
      end
  end.

Definition parseLines (lines : list jsstring) : list Session :=
  let '(current, sessions) := fold_left parseLine lines (None, []) in
  pushCurrent current sessions.

Definition parseProofLog (content : jsstring) : list Session :=
  parseLines (split_nl content).

End Parser.

Import Parser.

(** ** JavaScript objects as ordered maps *)

Module Obj.

(** The own enumerable entries of an object, in [Object.entries] order:
    array-index keys in ascending numeric order, then the other keys in the
    order they were created. *)
Definition obj : Type := list (jsstring * N).

(** A canonical array index: the decimal spelling, without a leading zero,
    of an integer from 0 to 2^32 - 2. *)
Definition isArrayIndex (k : jsstring) : bool :=
  match k with
  | [] => false
  | c :: r =>
      forallb isDigit k
      && (negb (c =? 48)%N || match r with [] => true | _ => false end)
      && (parseInt k <=? 4294967294)%N
  end.

(** The property names every object inherits from [Object.prototype]. *)
Definition inheritedNames : list jsstring :=
  List.map lit
    ["constructor"; "toString"; "toLocaleString"; "valueOf";
     "hasOwnProperty"; "isPrototypeOf"; "propertyIsEnumerable";
     "__proto__"; "__defineGetter__"; "__defineSetter__";
     "__lookupGetter__"; "__lookupSetter__"]%string.

(** Labels on which [o[k]] reads an own property or [undefined]. *)
Definition plainLabel (k : jsstring) : bool :=
  negb (bool_decide (k ∈ inheritedNames)).

(** [o[k]] for an own property; [None] is [undefined]. *)
Fixpoint objGet (k : jsstring) (o : obj) : option N :=
  match o with
  | [] => None
  | (k', v) :: o' => if bool_decide (k = k') then Some v else objGet k o'
  end.

(** Overwriting an existing property keeps its place. *)
Fixpoint objUpdate (k : jsstring) (v : N) (o : obj) : obj :=
  match o with
  | [] => []
  | (k', v') :: o' =>
      if bool_decide (k = k') then (k', v) :: o'
      else (k', v') :: objUpdate k v o'
  end.

(** A new array-index key takes its numeric place among the index keys. *)
Fixpoint objInsertIndex (k : jsstring) (v : N) (o : obj) : obj :=
  match o with
  | [] => [(k, v)]
  | (k', v') :: o' =>
      if isArrayIndex k' && (parseInt k' <? parseInt k)%N
      then (k', v') :: objInsertIndex k v o'
      else (k, v) :: o
  end.

(** [o[k] = v] *)
Definition objSet (k : jsstring) (v : N) (o : obj) : obj :=
  match objGet k o with
  | Some _ => objUpdate k v o
  | None => if isArrayIndex k then objInsertIndex k v o else o ++ [(k, v)]
  end.

(** [o[k] = (o[k] || 0) + m] *)
Definition objAdd (k : jsstring) (m : N) (o : obj) : obj :=
  objSet k (default 0%N (objGet k o) + m)%N o.

(** Inserting one entry into a list already ordered by decreasing minutes,
    ahead of the entries it ties with. *)
Fixpoint insertDesc (e : jsstring * N) (l : list (jsstring * N))
  : list (jsstring * N) :=
  match l with
  | [] => [e]
  | e' :: l' =>
      if (snd e <? snd e')%N then e' :: insertDesc e l' else e :: l
  end.

(** [entries.sort((a, b) => b[1] - a[1])]: the stable sort by decreasing
    minutes. *)
Definition sortDesc (l : list (jsstring * N)) : list (jsstring * N) :=
  fold_right insertDesc [] l.

(** [Object.entries(o).sort((a, b) => b[1] - a[1])[0]] *)
Definition topEntry (o : obj) : option (jsstring * N) := head (sortDesc o).

End Obj.

Import Obj.

(** ** Dates *)

Module Dates.

(** [toYMD(date)], the key a day is filed under. *)
Definition toYMD (date : Z) : Z := date.

Definition addDays (date n : Z) : Z := date + n.

(** [date.getDay()], 0 for Sunday; day 0 is Thursday 1970-01-01. *)
Definition getDay (date : Z) : Z := (date + 4) mod 7.

(** The start of the range: [numWeeks * 7] days before today, rewound to the
    previous Sunday. *)
Definition rangeStart (today numWeeks : Z) : Z :=
  let rs := today - numWeeks * 7 in
  let dow := getDay rs in
  rs - dow.

End Dates.

Import Dates.

(** A [while] loop: [None] when the fuel runs out before the test fails. *)
Fixpoint while {S : Type} (test : S -> bool) (body : S -> S) (fuel : nat)
  (s : S) : option S :=
  if test s then
    match fuel with
    | O => None
    | Datatypes.S f => while test body f (body s)
    end
  else Some s.

(** The iterations a cursor walking day by day needs to pass [todayStr]. *)
Definition daysLeft (cur todayStr : Z) : nat := Z.to_nat (todayStr - cur + 1).

(** The dates such a cursor visits, in order. *)
Definition dateRange (start todayStr : Z) : list Z :=
  seqZ start (todayStr - start + 1).

(** ** Loading the logs *)

Module Loader.

(** What the log directory holds for one day's file name. *)
Inductive File : Type :=
| Missing
| Unreadable
| Content (text : jsstring).

Definition existsSync (f : File) : bool :=
  match f with
  | Missing => false
  | _ => true
  end.

(** [readFileSync(filePath, 'utf8')]; [None] stands for the exception. *)
Definition readFileSync (f : File) : option jsstring :=
  match f with
  | Content text => Some text
  | _ => None
  end.

Record LoadState : Type := mkLoad {
  d : Z;
  minutesByDate : gmap Z N;
  projectsByDate : gmap Z obj
}.

(** [if (s.project)]: neither [null] nor the empty string. *)
Definition truthyLabel (p : option jsstring) : option jsstring :=
  match p with
  | Some (c :: r) => Some (c :: r)
  | _ => None
  end.

(** The body of [for (const s of sessions)]. *)
Definition loadSession (dateStr : Z) (st : LoadState) (s : Session)
  : LoadState :=
  if (durationMin s =? 0)%N then
    mkLoad (addDays (d st) 1) (minutesByDate st) (projectsByDate st)
  else
    let mbd :=
      <[dateStr := (default 0%N (minutesByDate st !! dateStr) + durationMin s)%N]>
        (minutesByDate st) in
    match truthyLabel (project s) with
    | Some p =>
        let o := default [] (projectsByDate st !! dateStr) in
        mkLoad (d st) mbd
          (<[dateStr := objAdd p (durationMin s) o]> (projectsByDate st))
    | None => mkLoad (d st) mbd (projectsByDate st)
    end.

(** The body of the loading loop. *)
Definition loadDay (fs : Z -> File) (st : LoadState) : LoadState :=
  let dateStr := toYMD (d st) in
  let st' :=
    if existsSync (fs dateStr) then
      match readFileSync (fs dateStr) with
      | Some content =>
          fold_left (loadSession dateStr) (parseProofLog content) st
      | None => st
      end
    else st in
  mkLoad (addDays (d st') 1) (minutesByDate st') (projectsByDate st').

Definition loadLogs (fs : Z -> File) (start todayStr : Z) (fuel : nat)
  : option LoadState :=
  while (fun st => toYMD (d st) <=? todayStr) (loadDay fs) fuel
    (mkLoad start ∅ ∅).

End Loader.

Import Loader.

(** ** The aggregation pass *)

Module Aggregator.

Record Stats : Type := mkStats {
  totalMinutes : N;
  activeDays : N;
  longestStreak : N;
  currentStreak : N;
  tempStreak : N;
  allProjects : obj
}.

Definition initStats : Stats := mkStats 0 0 0 0 0 [].

(** [minutesByDate[ds] || 0] *)
Definition minutesOn (mbd : gmap Z N) (ds : Z) : N := default 0%N (mbd !! ds).

(** The totals-and-streaks half of the loop body. *)
Definition streakStep (todayStr : Z) (min : N) (ds : Z) (st : Stats) : Stats :=
  if (0 <? min)%N then
    let temp := (tempStreak st + 1)%N in
    mkStats (totalMinutes st + min) (activeDays st + 1)
      (if (longestStreak st <? temp)%N then temp else longestStreak st)
      (if ds <=? todayStr then temp else currentStreak st)
      temp (allProjects st)
  else if ds <? todayStr then
    mkStats (totalMinutes st) (activeDays st) (longestStreak st) 0 0
      (allProjects st)
  else st.

(** [for (const [proj, min2] of Object.entries(projectsByDate[ds]))] *)
Definition addProjects (day : obj) (all : obj) : obj :=
  fold_left (fun acc e => objAdd (fst e) (snd e) acc) day all.

(** The body of the aggregation loop for the date [ds]. *)
Definition aggDay (todayStr : Z) (mbd : gmap Z N) (pbd : gmap Z obj)
  (st : Stats) (ds : Z) : Stats :=
  let st1 := streakStep todayStr (minutesOn mbd ds) ds st in
  match pbd !! ds with
  | Some day =>
      mkStats (totalMinutes st1) (activeDays st1) (longestStreak st1)
        (currentStreak st1) (tempStreak st1)
        (addProjects day (allProjects st1))
  | None => st1
  end.

(** The aggregation loop, on the state [(datesCursor, stats)]. *)
Definition aggregate (todayStr : Z) (mbd : gmap Z N) (pbd : gmap Z obj)
  (start : Z) (fuel : nat) : option (Z * Stats) :=
  while (fun cs => toYMD (fst cs) <=? todayStr)
    (fun cs => (fst cs + 1, aggDay todayStr mbd pbd (snd cs) (toYMD (fst cs))))
    fuel (start, initStats).

(** [Object.entries(allProjects).sort((a, b) => b[1] - a[1])[0]] *)
Definition topProject (st : Stats) : option (jsstring * N) :=
  topEntry (allProjects st).

End Aggregator.

Import Aggregator.

(** ** The grid of day cells *)

Module Renderer.

Definition getLevel (minutes : N) : N :=
  if (minutes =? 0)%N then 0
  else if (minutes <? 30)%N then 1
  else if (minutes <? 120)%N then 2
  else if (minutes <? 240)%N then 3
  else 4.

Definition CELL : Z := 13.
Definition GAP : Z := 3.
Definition STEP : Z := CELL + GAP.

(** One [<rect>]: its position, its level, the date and minutes it carries
    and the project named in its tooltip.  The texts of the month labels and
    of the hours in the tooltip are not modelled. *)
Record Cell : Type := mkCell {
  x : Z;
  y : Z;
  level : N;
  dataDate : Z;
  dataMin : N;
  topProj : option jsstring
}.

Record GridState : Type := mkGrid {
  weekCursor : Z;
  col : Z;
  cells : list Cell
}.

(** The body of [for (let row = 0; row < 7; row++)]. *)
Definition gridRow (todayStr : Z) (mbd : gmap Z N) (pbd : gmap Z obj)
  (g : GridState) (row : Z) : GridState :=
  let ds := toYMD (weekCursor g) in
  if todayStr <? ds then mkGrid (addDays (weekCursor g) 1) (col g) (cells g)
  else
    let min := minutesOn mbd ds in
    let tp :=
      match pbd !! ds with
      | Some day => fst <$> topEntry day
      | None => None
      end in
    mkGrid (addDays (weekCursor g) 1) (col g)
      (cells g ++ [mkCell (col g * STEP) (row * STEP) (getLevel min) ds min tp]).

(** One column of the grid: seven rows, then [col++]. *)
Definition gridWeek (todayStr : Z) (mbd : gmap Z N) (pbd : gmap Z obj)
  (g : GridState) : GridState :=
  let g' := fold_left (gridRow todayStr mbd pbd) [0; 1; 2; 3; 4; 5; 6] g in
  mkGrid (weekCursor g') (col g' + 1) (cells g').

Definition grid (todayStr : Z) (mbd : gmap Z N) (pbd : gmap Z obj)
  (start : Z) (fuel : nat) : option GridState :=
  while (fun g => toYMD (weekCursor g) <=? todayStr)
    (gridWeek todayStr mbd pbd) fuel (mkGrid start 0 []).

End Renderer.

Import Renderer.

(** ** The whole run *)

Record Report : Type := mkReport {
  dailyMinutes : gmap Z N;
  dailyProjects : gmap Z obj;
  stats : Stats;
  top : option (jsstring * N);
  gridCells : list Cell
}.

(** The script from the date range to the cells, for the day [today], the
    week count [numWeeks] and the log directory [fs]. *)
Definition run (today numWeeks : Z) (fs : Z -> File) : option Report :=
  let start := rangeStart today numWeeks in
  let todayStr := toYMD today in
  let fuel := daysLeft start todayStr in
  match loadLogs fs start todayStr fuel with
  | None => None
  | Some ld =>
      let mbd := minutesByDate ld in
      let pbd := projectsByDate ld in
      match aggregate todayStr mbd pbd start fuel with
      | None => None
      | Some (_, st) =>
          match grid todayStr mbd pbd start fuel with
          | None => None
          | Some g => Some (mkReport mbd pbd st (topProject st) (cells g))
          end
      end
  end.

(** The three marker lines as they stand in a log file. *)
Definition headerLine (hdate : string) : jsstring :=
  lit "### " ++ lit hdate ++ lit " 10:00-11:30 JST".
Definition durationLine (minutes : string) : jsstring :=
  prefixItsu ++ lit "10:00-11:30 " ++ jstParen ++ lit minutes ++ funParen.
Definition whereLine (label : string) : jsstring :=
  prefixDokode ++ lit label.

(** * Properties *)

(** ** Loops *)

Section While.
Context {S : Type} (test : S -> bool) (body : S -> S).

(** A loop whose body lowers a measure ends within that many iterations. *)
Lemma while_terminates (m : S -> nat) :
  (forall s, test s = true -> (m (body s) < m s)%nat) ->
  forall fuel s, (m s <= fuel)%nat ->
  exists s', while test body fuel s = Some s' /\ test s' = false.
Proof.
  intros Hdec fuel. induction fuel as [|f IH]; intros s Hm; simpl.
  - destruct (test s) eqn:Ht; [|eauto].
    specialize (Hdec s Ht). lia.
  - destruct (test s) eqn:Ht; [|eauto].
    apply IH. specialize (Hdec s Ht). lia.
Qed.

(** An invariant of the body holds when the loop ends. *)
Lemma while_invariant (P : S -> Prop) :
  (forall s, test s = true -> P s -> P (body s)) ->
  forall fuel s s', P s -> while test body fuel s = Some s' -> P s'.
Proof.
  intros Hstep fuel. induction fuel as [|f IH]; intros s s' HP; simpl.
  - destruct (test s); congruence.
  - destruct (test s) eqn:Ht; [|congruence].
    apply IH. auto.
Qed.
End While.

Lemma dateRange_cons start todayStr :
  start <= todayStr ->
  dateRange start todayStr = start :: dateRange (start + 1) todayStr.
Proof.
  intros H. unfold dateRange. rewrite seqZ_cons by lia.
  f_equal. f_equal; lia.
Qed.

Lemma dateRange_nil start todayStr :
  todayStr < start -> dateRange start todayStr = [].
Proof. intros H. unfold dateRange. apply seqZ_nil. lia. Qed.

Lemma dateRange_snoc start todayStr :
  start <= todayStr ->
  dateRange start todayStr = dateRange start (todayStr - 1) ++ [todayStr].
Proof.
  intros H. unfold dateRange.
  replace (todayStr - start + 1) with ((todayStr - 1 - start + 1) + 1) by lia.
  rewrite seqZ_app by lia. f_equal.
  rewrite seqZ_cons by lia. rewrite seqZ_nil by lia. f_equal. lia.
Qed.

Lemma dateRange_length start todayStr :
  length (dateRange start todayStr) = daysLeft start todayStr.
Proof. unfold dateRange, daysLeft. apply length_seqZ. Qed.

Lemma elem_of_dateRange start todayStr k :
  k ∈ dateRange start todayStr <-> start <= k <= todayStr.
Proof. unfold dateRange. rewrite elem_of_seqZ. lia. Qed.

(** ** The aggregation pass as a fold over the range *)

Lemma aggregate_loop todayStr mbd pbd fuel c st :
  (daysLeft c todayStr <= fuel)%nat ->
  while (fun cs => toYMD (fst cs) <=? todayStr)
    (fun cs => (fst cs + 1, aggDay todayStr mbd pbd (snd cs) (toYMD (fst cs))))
    fuel (c, st)
  = Some (Z.max c (todayStr + 1),
          fold_left (aggDay todayStr mbd pbd) (dateRange c todayStr) st).
Proof.
  revert c st. induction fuel as [|f IH]; intros c st Hf;
    unfold toYMD in *; simpl.
  - destruct (Z.leb_spec c todayStr); [unfold daysLeft in Hf; lia|].
    rewrite dateRange_nil by lia. simpl. do 2 f_equal. lia.
  - destruct (Z.leb_spec c todayStr).
    + unfold toYMD in IH. rewrite IH by (unfold daysLeft in *; lia).
      rewrite (dateRange_cons c) by lia. simpl. do 2 f_equal. lia.
    + rewrite dateRange_nil by lia. simpl. do 2 f_equal. lia.
Qed.

Lemma aggregate_fold todayStr mbd pbd start :
  aggregate todayStr mbd pbd start (daysLeft start todayStr)
  = Some (Z.max start (todayStr + 1),
          fold_left (aggDay todayStr mbd pbd) (dateRange start todayStr)
            initStats).
Proof. unfold aggregate. apply aggregate_loop. lia. Qed.

Lemma aggDay_streaks todayStr mbd pbd st ds :
  tempStreak (aggDay todayStr mbd pbd st ds)
  = tempStreak (streakStep todayStr (minutesOn mbd ds) ds st)
  /\ currentStreak (aggDay todayStr mbd pbd st ds)
     = currentStreak (streakStep todayStr (minutesOn mbd ds) ds st)
  /\ longestStreak (aggDay todayStr mbd pbd st ds)
     = longestStreak (streakStep todayStr (minutesOn mbd ds) ds st)
  /\ totalMinutes (aggDay todayStr mbd pbd st ds)
     = totalMinutes (streakStep todayStr (minutesOn mbd ds) ds st)
  /\ activeDays (aggDay todayStr mbd pbd st ds)
     = activeDays (streakStep todayStr (minutesOn mbd ds) ds st).
Proof. unfold aggDay. destruct (pbd !! ds); simpl; auto. Qed.

(** The streak invariant of the pass. *)
Definition streaksBounded (st : Stats) : Prop :=
  (tempStreak st <= longestStreak st)%N
  /\ (currentStreak st <= longestStreak st)%N.

Lemma streakStep_bounded todayStr min ds st :
  streaksBounded st -> streaksBounded (streakStep todayStr min ds st).
Proof.
  unfold streaksBounded, streakStep. intros [Ht Hc].
  destruct (0 <? min)%N; simpl.
  - destruct (N.ltb_spec (longestStreak st) (tempStreak st + 1));
      destruct (ds <=? todayStr); lia.
  - destruct (ds <? todayStr); simpl; lia.
Qed.

Lemma aggDay_bounded todayStr mbd pbd st ds :
  streaksBounded st -> streaksBounded (aggDay todayStr mbd pbd st ds).
Proof.
  intros H. unfold streaksBounded.
  destruct (aggDay_streaks todayStr mbd pbd st ds) as (-> & -> & -> & _).
  by apply streakStep_bounded.
Qed.

Lemma pass_bounded todayStr mbd pbd dates st :
  streaksBounded st ->
  streaksBounded (fold_left (aggDay todayStr mbd pbd) dates st).
Proof.
  revert st. induction dates as [|ds dates IH]; intros st H; simpl; [done|].
  apply IH. by apply aggDay_bounded.
Qed.

(** ** The loading loop ends *)

Lemma loadSession_d dateStr st s : d st <= d (loadSession dateStr st s).
Proof.
  unfold loadSession, addDays.
  destruct (durationMin s =? 0)%N; simpl; [lia|].
  destruct (truthyLabel (project s)); simpl; lia.
Qed.

Lemma loadSessions_d dateStr ss st :
  d st <= d (fold_left (loadSession dateStr) ss st).
Proof.
  revert st. induction ss as [|s ss IH]; intros st; simpl; [lia|].
  etransitivity; [apply (loadSession_d dateStr st s)|apply IH].
Qed.

Lemma loadDay_d fs st : d st + 1 <= d (loadDay fs st).
Proof.
  unfold loadDay, addDays. simpl.
  destruct (existsSync _); [|lia].
  destruct (readFileSync _); [|lia].
  pose proof (loadSessions_d (toYMD (d st)) (parseProofLog j) st). lia.
Qed.

Lemma loadLogs_total fs start todayStr :
  exists ld, loadLogs fs start todayStr (daysLeft start todayStr) = Some ld.
Proof.
  unfold loadLogs.
  destruct (while_terminates (fun st => toYMD (d st) <=? todayStr) (loadDay fs)
              (fun st => daysLeft (d st) todayStr)) with
    (fuel := daysLeft start todayStr) (s := mkLoad start ∅ ∅)
    as (ld & H & _); eauto.
  intros st Ht. unfold toYMD in Ht. apply Z.leb_le in Ht.
  pose proof (loadDay_d fs st). unfold daysLeft. lia.
Qed.

(** ** The grid holds one cell per date of the range *)

Definition cellDates (g : GridState) : list Z := dataDate <$> cells g.

Lemma gridRow_dates todayStr mbd pbd g row :
  weekCursor (gridRow todayStr mbd pbd g row) = weekCursor g + 1
  /\ col (gridRow todayStr mbd pbd g row) = col g
  /\ cellDates (gridRow todayStr mbd pbd g row)
     = cellDates g
       ++ (if weekCursor g <=? todayStr then [weekCursor g] else []).
Proof.
  unfold gridRow, cellDates, toYMD, addDays.
  destruct (Z.ltb_spec todayStr (weekCursor g));
    destruct (Z.leb_spec (weekCursor g) todayStr); try lia; simpl.
  - by rewrite app_nil_r.
  - by rewrite fmap_app.
Qed.

Lemma gridRows_dates todayStr mbd pbd rows g :
  let g' := fold_left (gridRow todayStr mbd pbd) rows g in
  weekCursor g' = weekCursor g + Z.of_nat (length rows)
  /\ col g' = col g
  /\ cellDates g'
     = cellDates g
       ++ seqZ (weekCursor g)
            (Z.min (Z.of_nat (length rows)) (todayStr - weekCursor g + 1)).
Proof.
  revert g. induction rows as [|row rows IH]; intros g; simpl.
  - split; [lia|]. split; [done|].
    rewrite seqZ_nil by lia. by rewrite app_nil_r.
  - destruct (gridRow_dates todayStr mbd pbd g row) as (Hc & Hcol & Hd).
    destruct (IH (gridRow todayStr mbd pbd g row)) as (Hc' & Hcol' & Hd').
    simpl in *. rewrite Hc', Hcol', Hd', Hc, Hcol, Hd.
    split; [lia|]. split; [done|].
    rewrite <- app_assoc. f_equal.
    destruct (Z.leb_spec (weekCursor g) todayStr).
    + rewrite (seqZ_cons (weekCursor g)) by lia. simpl. f_equal.
      f_equal; lia.
    + rewrite !seqZ_nil by lia. done.
Qed.

Lemma gridWeek_dates todayStr mbd pbd g :
  weekCursor (gridWeek todayStr mbd pbd g) = weekCursor g + 7
  /\ cellDates (gridWeek todayStr mbd pbd g)
     = cellDates g
       ++ seqZ (weekCursor g) (Z.min 7 (todayStr - weekCursor g + 1)).
Proof.
  unfold gridWeek.
  destruct (gridRows_dates todayStr mbd pbd [0; 1; 2; 3; 4; 5; 6] g)
    as (Hc & _ & Hd).
  simpl in *. unfold cellDates in *. simpl. rewrite Hc, Hd. done.
Qed.

Lemma grid_loop todayStr mbd pbd fuel g :
  (daysLeft (weekCursor g) todayStr <= fuel)%nat ->
  exists g',
    while (fun g => toYMD (weekCursor g) <=? todayStr)
      (gridWeek todayStr mbd pbd) fuel g = Some g'
    /\ cellDates g' = cellDates g ++ dateRange (weekCursor g) todayStr.
Proof.
  revert g. induction fuel as [|f IH]; intros g Hf; unfold toYMD in *; simpl.
  - destruct (Z.leb_spec (weekCursor g) todayStr);
      [unfold daysLeft in Hf; lia|].
    exists g; split; [reflexivity|]. rewrite dateRange_nil by lia.
    by rewrite app_nil_r.
  - destruct (Z.leb_spec (weekCursor g) todayStr).
    + destruct (gridWeek_dates todayStr mbd pbd g) as (Hc & Hd).
      destruct (IH (gridWeek todayStr mbd pbd g)) as (g' & Hw & Hd').
      { unfold daysLeft in *. lia. }
      exists g'. split; [done|].
      rewrite Hd', Hd, Hc, <- app_assoc. f_equal. unfold dateRange.
      destruct (Z.le_gt_cases 7 (todayStr - weekCursor g + 1)).
      * rewrite Z.min_l by lia.
        replace (todayStr - weekCursor g + 1)
          with (7 + (todayStr - (weekCursor g + 7) + 1)) by lia.
        rewrite (seqZ_app (weekCursor g) 7) by lia. done.
      * rewrite Z.min_r by lia.
        rewrite (seqZ_nil (weekCursor g + 7)) by lia. by rewrite app_nil_r.
    + exists g; split; [reflexivity|]. rewrite dateRange_nil by lia.
      by rewrite app_nil_r.
Qed.

Lemma grid_total todayStr mbd pbd start :
  exists g,
    grid todayStr mbd pbd start (daysLeft start todayStr) = Some g
    /\ cellDates g = dateRange start todayStr.
Proof.
  unfold grid.
  destruct (grid_loop todayStr mbd pbd (daysLeft start todayStr)
              (mkGrid start 0 [])) as (g & H & Hd); [simpl; lia|].
  exists g. split; [done|]. by rewrite Hd.
Qed.

(** ** The run always produces a report *)

Lemma run_total today numWeeks fs :
  let start := rangeStart today numWeeks in
  exists ld g,
    loadLogs fs start today (daysLeft start today) = Some ld
    /\ grid today (minutesByDate ld) (projectsByDate ld) start
         (daysLeft start today) = Some g
    /\ cellDates g = dateRange start today
    /\ let st := fold_left (aggDay today (minutesByDate ld) (projectsByDate ld))
                   (dateRange start today) initStats in
       run today numWeeks fs
       = Some (mkReport (minutesByDate ld) (projectsByDate ld) st
                 (topProject st) (cells g)).
Proof.
  intros start.
  destruct (loadLogs_total fs start today) as (ld & Hld).
  destruct (grid_total today (minutesByDate ld) (projectsByDate ld) start)
    as (g & Hg & Hd).
  exists ld, g. repeat split; try done.
  unfold run, toYMD. fold start. rewrite Hld, aggregate_fold, Hg. done.
Qed.

(** ** Activity levels *)

(** C7: the activity level is a function of the day's minutes alone, given by
    the threshold table: 0 minutes is level 0, fewer than 30 level 1, fewer
    than 120 level 2, fewer than 240 level 3, 240 or more level 4; the
    boundaries 29, 30, 119, 120, 239 and 240 fall as the table says. *)
Theorem C7_getLevel_threshold_table :
  (forall m : N,
     (m = 0 -> getLevel m = 0)
     /\ (0 < m < 30 -> getLevel m = 1)
     /\ (30 <= m < 120 -> getLevel m = 2)
     /\ (120 <= m < 240 -> getLevel m = 3)
     /\ (240 <= m -> getLevel m = 4))%N
  /\ getLevel 0 = 0%N /\ getLevel 29 = 1%N /\ getLevel 30 = 2%N
  /\ getLevel 119 = 2%N /\ getLevel 120 = 3%N /\ getLevel 239 = 3%N
  /\ getLevel 240 = 4%N.
Proof.
  split; [|by vm_compute].
  intros m. unfold getLevel.
  destruct (N.eqb_spec m 0), (N.ltb_spec m 30), (N.ltb_spec m 120),
    (N.ltb_spec m 240); repeat split; intros; first [reflexivity | lia].
Qed.

(** ** Streaks *)

Lemma streakStep_zero todayStr ds st :
  let st' := streakStep todayStr 0 ds st in
  (ds < todayStr -> tempStreak st' = 0%N /\ currentStreak st' = 0%N)
  /\ (todayStr <= ds ->
      tempStreak st' = tempStreak st /\ currentStreak st' = currentStreak st).
Proof.
  unfold streakStep. simpl.
  destruct (Z.ltb_spec ds todayStr); simpl; split; intros; try lia; auto.
Qed.

(** C1: in the aggregation pass, a date with zero total minutes that is
    strictly before today sets both the running streak and the current streak
    to zero, and a zero-minute date that is today or later leaves both as they
    were; this holds in whatever state the pass reaches the date, in
    particular after any dates [before] processed from the initial state. *)
Theorem C1_zero_minute_day_streaks
  (todayStr : Z) (mbd : gmap Z N) (pbd : gmap Z obj) (ds : Z) :
  minutesOn mbd ds = 0%N ->
  (forall st,
     let st' := aggDay todayStr mbd pbd st ds in
     (ds < todayStr -> tempStreak st' = 0%N /\ currentStreak st' = 0%N)
     /\ (todayStr <= ds ->
         tempStreak st' = tempStreak st
         /\ currentStreak st' = currentStreak st))
  /\ (forall before,
        let st := fold_left (aggDay todayStr mbd pbd) before initStats in
        let st' :=
          fold_left (aggDay todayStr mbd pbd) (before ++ [ds]) initStats in
        (ds < todayStr -> tempStreak st' = 0%N /\ currentStreak st' = 0%N)
        /\ (todayStr <= ds ->
            tempStreak st' = tempStreak st
            /\ currentStreak st' = currentStreak st)).
Proof.
  intros Hz.
  assert (Hstep : forall st,
    let st' := aggDay todayStr mbd pbd st ds in
    (ds < todayStr -> tempStreak st' = 0%N /\ currentStreak st' = 0%N)
    /\ (todayStr <= ds ->
        tempStreak st' = tempStreak st /\ currentStreak st' = currentStreak st)).
  { intros st st'. subst st'.
    destruct (aggDay_streaks todayStr mbd pbd st ds) as (-> & -> & _).
    rewrite Hz. apply streakStep_zero. }
  split; [exact Hstep|].
  intros before. rewrite fold_left_app. simpl. apply Hstep.
Qed.

Lemma C1_zero_minute_day_streaks_witness :
  minutesOn (<[19786 := 90%N]> ∅) 19787 = 0%N
  /\ tempStreak
       (aggDay 19790 (<[19786 := 90%N]> ∅) ∅ (mkStats 90 1 1 1 1 []) 19787)
     = 0%N
  /\ currentStreak
       (fold_left (aggDay 19787 (<[19786 := 90%N]> ∅) ∅) ([19786] ++ [19787])
          initStats)
     = 1%N.
Proof.
  split; [reflexivity|].
  pose proof (C1_zero_minute_day_streaks 19790 (<[19786 := 90%N]> ∅) ∅ 19787
                eq_refl) as [Hstep _].
  pose proof (C1_zero_minute_day_streaks 19787 (<[19786 := 90%N]> ∅) ∅ 19787
                eq_refl) as [_ Hpass].
  split.
  - apply (Hstep (mkStats 90 1 1 1 1 [])). lia.
  - destruct (Hpass [19786]) as [_ Hkeep]. rewrite (proj2 (Hkeep ltac:(lia))).
    reflexivity.
Defined.

(** C4: at every point of the aggregation pass the longest streak is at least
    the current streak, whatever the dates processed so far and the minutes of
    each day; so it is in the report of every run. *)
Theorem C4_longest_streak_bounds_current :
  (forall (todayStr : Z) (mbd : gmap Z N) (pbd : gmap Z obj) (dates : list Z),
     let st := fold_left (aggDay todayStr mbd pbd) dates initStats in
     (currentStreak st <= longestStreak st)%N)
  /\ (forall (today numWeeks : Z) (fs : Z -> File),
        exists r,
          run today numWeeks fs = Some r
          /\ (currentStreak (stats r) <= longestStreak (stats r))%N).
Proof.
  assert (H : forall todayStr mbd pbd dates,
    streaksBounded (fold_left (aggDay todayStr mbd pbd) dates initStats)).
  { intros. apply pass_bounded. split; simpl; lia. }
  split.
  - intros. apply H.
  - intros today numWeeks fs.
    destruct (run_total today numWeeks fs) as (ld & g & _ & _ & _ & Hrun).
    eexists. split; [exact Hrun|]. simpl. apply H.
Qed.

(** ** The date range *)

Lemma getDay_range date : 0 <= getDay date < 7.
Proof. unfold getDay. apply Z.mod_pos_bound. lia. Qed.

Lemma getDay_week date k : getDay (date - k * 7) = getDay date.
Proof.
  unfold getDay.
  replace (date - k * 7 + 4) with (date + 4 + (- k) * 7) by lia.
  apply Z.mod_add. lia.
Qed.

Lemma dateRange_ends start todayStr :
  start <= todayStr ->
  head (dateRange start todayStr) = Some start
  /\ last (dateRange start todayStr) = Some todayStr.
Proof.
  intros H. split.
  - by rewrite dateRange_cons.
  - rewrite dateRange_snoc by lia. apply last_snoc.
Qed.

(** C6: for every week count and every today, the range starts on the most
    recent Sunday at or before today minus seven days per week: its first date
    is a Sunday, is not after that day, and no Sunday lies between the two;
    and the dates visited run from that Sunday to today, whatever weekday
    today is. *)
Theorem C6_range_starts_on_sunday_ends_today (today numWeeks : Z) :
  let start := rangeStart today numWeeks in
  getDay start = 0
  /\ start <= today - numWeeks * 7
  /\ (forall s, getDay s = 0 -> s <= today - numWeeks * 7 -> s <= start)
  /\ (0 <= numWeeks ->
      head (dateRange start today) = Some start
      /\ last (dateRange start today) = Some today).
Proof.
  intros start. subst start. unfold rangeStart. simpl.
  set (rs := today - numWeeks * 7).
  pose proof (getDay_range rs) as Hr.
  assert (Hsun : getDay (rs - getDay rs) = 0).
  { unfold getDay. unfold getDay in Hr.
    replace (rs - (rs + 4) mod 7 + 4) with (rs + 4 - (rs + 4) mod 7) by lia.
    rewrite Zminus_mod, Z.mod_mod, Z.sub_diag by lia. reflexivity. }
  split; [exact Hsun|]. split; [lia|]. split.
  - intros s Hs Hle. unfold getDay in *.
    apply Z.mod_divide in Hs; [|lia]. apply Z.mod_divide in Hsun; [|lia].
    destruct Hs as [a Ha]. destruct Hsun as [b Hb]. lia.
  - intros HN. apply dateRange_ends. subst rs. lia.
Qed.

(** ** What one day's file changes *)

Lemma while_ext {S : Type} (test : S -> bool) (body1 body2 : S -> S) :
  (forall s, body1 s = body2 s) ->
  forall fuel s, while test body1 fuel s = while test body2 fuel s.
Proof.
  intros Hb fuel. induction fuel as [|f IH]; intros s; simpl; [done|].
  destruct (test s); [|done]. rewrite Hb. apply IH.
Qed.

Lemma loadSession_other dateStr st s k :
  k <> dateStr ->
  minutesByDate (loadSession dateStr st s) !! k = minutesByDate st !! k
  /\ projectsByDate (loadSession dateStr st s) !! k = projectsByDate st !! k.
Proof.
  intros Hk. unfold loadSession.
  destruct (durationMin s =? 0)%N; simpl; [done|].
  destruct (truthyLabel (project s)); simpl;
    rewrite ?lookup_insert_ne by done; done.
Qed.

Lemma loadSessions_other dateStr ss st k :
  k <> dateStr ->
  minutesByDate (fold_left (loadSession dateStr) ss st) !! k
  = minutesByDate st !! k
  /\ projectsByDate (fold_left (loadSession dateStr) ss st) !! k
     = projectsByDate st !! k.
Proof.
  intros Hk. revert st. induction ss as [|s ss IH]; intros st; simpl; [done|].
  destruct (IH (loadSession dateStr st s)) as [-> ->].
  by apply loadSession_other.
Qed.

(** A day whose file is missing or cannot be read only moves the cursor. *)
Lemma loadDay_no_file fs st :
  existsSync (fs (d st)) = false \/ readFileSync (fs (d st)) = None ->
  loadDay fs st = mkLoad (d st + 1) (minutesByDate st) (projectsByDate st).
Proof.
  unfold loadDay, toYMD, addDays. intros [-> | ->]; [done|].
  by destruct (existsSync _).
Qed.

Lemma loadDay_other fs st k :
  k <> d st ->
  minutesByDate (loadDay fs st) !! k = minutesByDate st !! k
  /\ projectsByDate (loadDay fs st) !! k = projectsByDate st !! k.
Proof.
  intros Hk. unfold loadDay, toYMD. simpl.
  destruct (existsSync _); [|done].
  destruct (readFileSync _); [|done].
  by apply loadSessions_other.
Qed.

(** The directory with the file of day [k] taken away. *)
Definition withoutFile (k : Z) (fs : Z -> File) : Z -> File :=
  fun k' => if k' =? k then Missing else fs k'.

Lemma loadDay_withoutFile fs k st :
  existsSync (fs k) = false \/ readFileSync (fs k) = None ->
  loadDay (withoutFile k fs) st = loadDay fs st.
Proof.
  intros Hk. destruct (Z.eq_dec (d st) k) as [Heq|Hne].
  - rewrite !loadDay_no_file; [done|by rewrite Heq|].
    unfold withoutFile. rewrite Heq, Z.eqb_refl. by left.
  - unfold loadDay, withoutFile, toYMD.
    destruct (Z.eqb_spec (d st) k); [done|]. done.
Qed.

Lemma run_withoutFile today numWeeks fs k :
  existsSync (fs k) = false \/ readFileSync (fs k) = None ->
  run today numWeeks (withoutFile k fs) = run today numWeeks fs.
Proof.
  intros Hk. unfold run, loadLogs.
  rewrite (while_ext _ (loadDay (withoutFile k fs)) (loadDay fs)); [done|].
  intros st. by apply loadDay_withoutFile.
Qed.

Lemma loadLogs_no_file fs start todayStr fuel ld k :
  existsSync (fs k) = false \/ readFileSync (fs k) = None ->
  loadLogs fs start todayStr fuel = Some ld ->
  minutesByDate ld !! k = None /\ projectsByDate ld !! k = None.
Proof.
  intros Hk. unfold loadLogs.
  apply (while_invariant _ (loadDay fs)
           (fun st => minutesByDate st !! k = None
                      /\ projectsByDate st !! k = None)); [|done].
  intros st _ [Hm Hp]. destruct (Z.eq_dec (d st) k) as [Heq|Hne].
  - rewrite loadDay_no_file by (by rewrite Heq). done.
  - destruct (loadDay_other fs st k) as [-> ->]; done.
Qed.

(** C9: a date whose log file is missing or fails to read does not stop the
    run: the run produces its report, the date has no minutes and no projects
    in it (a daily total of 0, level 0), the pass neither counts it as an
    active day nor adds to the total there, and the report is the one of the
    same directory with that file absent. *)
Theorem C9_unreadable_file_is_skipped
  (today numWeeks : Z) (fs : Z -> File) (k : Z) :
  existsSync (fs k) = false \/ readFileSync (fs k) = None ->
  exists r,
    run today numWeeks fs = Some r
    /\ dailyMinutes r !! k = None
    /\ dailyProjects r !! k = None
    /\ minutesOn (dailyMinutes r) k = 0%N
    /\ getLevel (minutesOn (dailyMinutes r) k) = 0%N
    /\ (forall st,
          let st' := aggDay today (dailyMinutes r) (dailyProjects r) st k in
          activeDays st' = activeDays st
          /\ totalMinutes st' = totalMinutes st
          /\ allProjects st' = allProjects st)
    /\ run today numWeeks (withoutFile k fs) = Some r.
Proof.
  intros Hk.
  destruct (run_total today numWeeks fs) as (ld & g & Hld & _ & _ & Hrun).
  destruct (loadLogs_no_file _ _ _ _ _ k Hk Hld) as [Hm Hp].
  eexists. split; [exact Hrun|]. simpl.
  assert (Hz : minutesOn (minutesByDate ld) k = 0%N)
    by (unfold minutesOn; by rewrite Hm).
  repeat split; try done.
  - by rewrite Hz.
  - unfold aggDay. rewrite Hp, Hz. unfold streakStep. simpl.
    by destruct (k <? today).
  - unfold aggDay. rewrite Hp, Hz. unfold streakStep. simpl.
    by destruct (k <? today).
  - unfold aggDay. rewrite Hp, Hz. unfold streakStep. simpl.
    by destruct (k <? today).
  - rewrite run_withoutFile by done. exact Hrun.
Qed.

Lemma C9_unreadable_file_is_skipped_witness :
  exists r,
    run 19790 1 (fun k => if k =? 19786 then Unreadable else Missing) = Some r
    /\ dailyMinutes r !! 19786 = None.
Proof.
  destruct (C9_unreadable_file_is_skipped 19790 1
              (fun k => if k =? 19786 then Unreadable else Missing) 19786)
    as (r & Hrun & Hm & _).
  - right. reflexivity.
  - exists r. split; assumption.
Defined.

(** ** A range without any file *)

Lemma loadLogs_no_files fs start todayStr fuel ld :
  (forall k, k ∈ dateRange start todayStr -> fs k = Missing) ->
  loadLogs fs start todayStr fuel = Some ld ->
  minutesByDate ld = ∅ /\ projectsByDate ld = ∅.
Proof.
  intros Hfs Hld.
  cut (start <= d ld /\ minutesByDate ld = ∅ /\ projectsByDate ld = ∅);
    [tauto|].
  revert Hld. unfold loadLogs.
  apply (while_invariant _ (loadDay fs)
           (fun st => start <= d st /\ minutesByDate st = ∅
                      /\ projectsByDate st = ∅)); [|simpl; repeat split; lia].
  intros st Ht (Hs & Hm & Hp). unfold toYMD in Ht. apply Z.leb_le in Ht.
  rewrite loadDay_no_file.
  - simpl. repeat split; [lia|done|done].
  - left. rewrite Hfs; [done|]. apply elem_of_dateRange. lia.
Qed.

Lemma pass_no_minutes todayStr dates :
  fold_left (aggDay todayStr ∅ ∅) dates initStats = initStats.
Proof.
  induction dates as [|ds dates IH]; simpl; [done|].
  replace (aggDay todayStr ∅ ∅ initStats ds) with initStats; [done|].
  unfold aggDay, minutesOn, streakStep. rewrite !lookup_empty. simpl.
  by destruct (ds <? todayStr).
Qed.

Lemma rangeStart_one_week today :
  today - rangeStart today 1 + 1 = 8 + getDay today.
Proof.
  unfold rangeStart. simpl.
  replace (today - 1 * 7) with (today - 1 * 7) by done.
  rewrite (getDay_week today 1). lia.
Qed.

Lemma gridRow_level0 todayStr pbd g row :
  Forall (fun c => level c = 0%N) (cells g) ->
  Forall (fun c => level c = 0%N) (cells (gridRow todayStr ∅ pbd g row)).
Proof.
  intros H. unfold gridRow. destruct (todayStr <? _); simpl; [done|].
  apply Forall_app. split; [done|]. constructor; [|constructor]. simpl.
  unfold minutesOn. by rewrite lookup_empty.
Qed.

Lemma gridRows_level0 todayStr pbd rows g :
  Forall (fun c => level c = 0%N) (cells g) ->
  Forall (fun c => level c = 0%N)
    (cells (fold_left (gridRow todayStr ∅ pbd) rows g)).
Proof.
  revert g. induction rows as [|row rows IH]; intros g H; simpl; [done|].
  apply IH. by apply gridRow_level0.
Qed.

(** C3 (as the code has it): with the week count 1 and no log file for any
    date of the range, the total minutes, the active days, the longest streak
    and the current streak are all 0, and the grid holds one cell per date of
    the range, each at level 0: 8 cells plus today's weekday number (0 for
    Sunday), so between 8 and 14. *)
Theorem C3_empty_week_aggregates (today : Z) (fs : Z -> File) :
  (forall k, k ∈ dateRange (rangeStart today 1) today -> fs k = Missing) ->
  exists r,
    run today 1 fs = Some r
    /\ totalMinutes (stats r) = 0%N
    /\ activeDays (stats r) = 0%N
    /\ longestStreak (stats r) = 0%N
    /\ currentStreak (stats r) = 0%N
    /\ top r = None
    /\ Z.of_nat (length (gridCells r)) = 8 + getDay today
    /\ (8 <= length (gridCells r) <= 14)%nat
    /\ dataDate <$> gridCells r = dateRange (rangeStart today 1) today
    /\ Forall (fun c => level c = 0%N) (gridCells r).
Proof.
  intros Hfs.
  destruct (run_total today 1 fs) as (ld & g & Hld & Hg & Hd & Hrun).
  destruct (loadLogs_no_files _ _ _ _ _ Hfs Hld) as [Hm Hp].
  rewrite Hm, Hp in *. rewrite pass_no_minutes in Hrun.
  eexists. split; [exact Hrun|]. simpl.
  assert (Hlen : Z.of_nat (length (cells g)) = 8 + getDay today).
  { unfold cellDates in Hd.
    rewrite <- (length_fmap dataDate), Hd, dateRange_length.
    unfold daysLeft. pose proof (rangeStart_one_week today).
    pose proof (getDay_range today). lia. }
  pose proof (getDay_range today).
  repeat split; try done; try lia.
  revert Hg. unfold grid.
  apply (while_invariant _ (gridWeek today ∅ ∅)
           (fun g => Forall (fun c => level c = 0%N) (cells g)));
    [|by constructor].
  intros g0 _ H0.
  apply (gridRows_level0 today ∅ [0; 1; 2; 3; 4; 5; 6] g0 H0).
Qed.

Lemma C3_empty_week_aggregates_witness :
  exists r,
    run 19786 1 (fun _ => Missing) = Some r
    /\ totalMinutes (stats r) = 0%N
    /\ Z.of_nat (length (gridCells r)) = 9.
Proof.
  destruct (C3_empty_week_aggregates 19786 (fun _ => Missing))
    as (r & Hrun & Htot & _ & _ & _ & _ & Hlen & _).
  - intros k _. reflexivity.
  - exists r. split; [exact Hrun|]. split; [exact Htot|exact Hlen].
Defined.

(** C3 as stated fails: on Monday 2024-03-04 (day 19786) with the week count 1
    and an empty log directory, the grid holds 9 cells, not 7. *)
Lemma C3_seven_cells_counterexample :
  exists r,
    run 19786 1 (fun _ => Missing) = Some r
    /\ length (gridCells r) = 9%nat
    /\ length (gridCells r) <> 7%nat.
Proof.
  eexists. split; [vm_compute; reflexivity|]. simpl. split; [done|lia].
Qed.

(** ** The parser *)

(** The date a raw line carries when it is a session header. *)
Definition headerOf (raw : jsstring) : option jsstring := execHeader (trim raw).

(** The dates of the sessions a parser state stands for. *)
Definition stateDates (st : option Session * list Session) : list jsstring :=
  date <$> pushCurrent (fst st) (snd st).

Lemma parseLine_dates st raw :
  stateDates (parseLine st raw)
  = stateDates st ++ match headerOf raw with Some hd => [hd] | None => [] end.
Proof.
  destruct st as [cur ss]. unfold parseLine, stateDates, headerOf.
  destruct (execHeader (trim raw)) as [hd|]; simpl.
  - by rewrite fmap_app.
  - rewrite app_nil_r. destruct cur as [c|]; [|done].
    destruct (execDuration (trim raw)); simpl; [by rewrite !fmap_app|].
    destruct (execWhere (trim raw)); simpl; by rewrite ?fmap_app.
Qed.

Lemma parseLines_dates lines st :
  stateDates (fold_left parseLine lines st)
  = stateDates st ++ omap headerOf lines.
Proof.
  revert st. induction lines as [|raw lines IH]; intros st; simpl.
  - by rewrite app_nil_r.
  - rewrite IH, parseLine_dates. rewrite <- app_assoc. f_equal.
    by destruct (headerOf raw).
Qed.

Lemma parseLines_state lines :
  parseLines lines
  = pushCurrent (fst (fold_left parseLine lines (None, [])))
      (snd (fold_left parseLine lines (None, []))).
Proof. unfold parseLines. by destruct (fold_left _ _ _). Qed.

(** A line that is no header, met while no session is open or matching
    neither item marker, leaves the parser state as it is. *)
Lemma parseLine_inert cur ss raw :
  headerOf raw = None ->
  cur = None
  \/ (execDuration (trim raw) = None /\ execWhere (trim raw) = None) ->
  parseLine (cur, ss) raw = (cur, ss).
Proof.
  unfold parseLine, headerOf. intros -> [-> | [-> ->]]; [done|].
  by destruct cur.
Qed.

Lemma parseLines_no_header pre :
  Forall (fun raw => headerOf raw = None) pre ->
  fold_left parseLine pre (None, []) = (None, []).
Proof.
  induction 1 as [|raw pre Hraw _ IH]; cbn [fold_left]; [done|].
  rewrite parseLine_inert; auto.
Qed.

(** C5: for every text the parser returns one session per header line, in the
    order of the lines, each carrying its header's date; a header line closes
    the session in progress and opens a fresh one; the session open at the end
    of the text is flushed; and a line that matches no marker, or any line
    that is not a header and comes before the first header, can be taken out
    of the text without changing the result. *)
Theorem C5_parser_one_session_per_header :
  (forall content,
     date <$> parseProofLog content = omap headerOf (split_nl content)
     /\ length (parseProofLog content)
        = length (omap headerOf (split_nl content)))
  /\ (forall cur ss raw hd,
        headerOf raw = Some hd ->
        parseLine (cur, ss) raw
        = (Some (mkSession hd 0 None), pushCurrent cur ss))
  /\ (forall lines c ss,
        fold_left parseLine lines (None, []) = (Some c, ss) ->
        parseLines lines = ss ++ [c])
  /\ (forall content pre raw post,
        split_nl content = pre ++ raw :: post ->
        headerOf raw = None ->
        execDuration (trim raw) = None ->
        execWhere (trim raw) = None ->
        parseProofLog content = parseLines (pre ++ post))
  /\ (forall content pre raw post,
        split_nl content = pre ++ raw :: post ->
        Forall (fun l => headerOf l = None) pre ->
        headerOf raw = None ->
        parseProofLog content = parseLines (pre ++ post)).
Proof.
  assert (Hdates : forall content,
    date <$> parseProofLog content = omap headerOf (split_nl content)).
  { intros content. unfold parseProofLog. rewrite parseLines_state.
    apply (parseLines_dates (split_nl content) (None, [])). }
  repeat split.
  - apply Hdates.
  - rewrite <- Hdates. by rewrite length_fmap.
  - intros cur ss raw hd H. unfold parseLine. unfold headerOf in H.
    by rewrite H.
  - intros lines c ss H. unfold parseLines. by rewrite H.
  - intros content pre raw post Hs Hh Hd Hw.
    unfold parseProofLog. rewrite Hs. unfold parseLines.
    rewrite !fold_left_app. cbn [fold_left].
    destruct (fold_left parseLine pre (None, [])) as [cur ss].
    rewrite parseLine_inert; auto.
  - intros content pre raw post Hs Hpre Hh.
    unfold parseProofLog. rewrite Hs. unfold parseLines.
    rewrite !fold_left_app. cbn [fold_left].
    rewrite parseLines_no_header by done.
    rewrite parseLine_inert; auto.
Qed.

Example parse_demo :
  parseProofLog
    (join_nl [lit "# log"; whereLine "early"; headerLine "2024-03-04";
              durationLine "90"; whereLine " alpha  "; lit "noise";
              headerLine "2024-03-04"])
  = [mkSession (lit "2024-03-04") 90%N (Some (lit "alpha"));
     mkSession (lit "2024-03-04") 0%N None].
Proof. vm_compute. reflexivity. Qed.

(** The greedy dot leaves the last minute count to the capture group, and
    needs at least one code unit before [JST]. *)
Example execDuration_demo :
  execDuration (prefixItsu ++ lit "x" ++ jstParen ++ lit "5" ++ funParen
                ++ jstParen ++ lit "12" ++ funParen) = Some (lit "12")
  /\ execDuration (prefixItsu ++ jstParen ++ lit "5" ++ funParen) = None
  /\ execDuration (durationLine "") = None
  /\ execWhere (prefixDokode) = None
  /\ headerOf (lit "  ### 2024-03-04 10:00-11:30 JST trailing") = Some (lit "2024-03-04")
  /\ headerOf (lit "### 2024-3-04 10:00-11:30 JST") = None.
Proof. vm_compute. repeat split; reflexivity. Qed.

(** ** Sessions without a duration *)

(** A session with no minutes adds nothing to the day's totals; it moves the
    date cursor of the loading loop one day on. *)
Lemma loadSession_zero dateStr st s :
  durationMin s = 0%N ->
  loadSession dateStr st s
  = mkLoad (d st + 1) (minutesByDate st) (projectsByDate st).
Proof. unfold loadSession, addDays. by intros ->. Qed.

(** The log directory of the example: on 2024-03-04 (day 19786) a session of
    30 minutes on beta followed by a session block without a duration line, on
    2024-03-05 a session of 90 minutes on alpha. *)
Definition fsWithZero (k : Z) : File :=
  if k =? 19786 then
    Content (join_nl [headerLine "2024-03-04"; durationLine "30"; whereLine "beta";
                      headerLine "2024-03-04"; whereLine "beta"])
  else if k =? 19787 then
    Content (join_nl [headerLine "2024-03-05"; durationLine "90"; whereLine "alpha"])
  else Missing.

(** The same directory with the block without a duration taken out. *)
Definition fsZeroRemoved (k : Z) : File :=
  if k =? 19786 then
    Content (join_nl [headerLine "2024-03-04"; durationLine "30"; whereLine "beta"])
  else if k =? 19787 then
    Content (join_nl [headerLine "2024-03-05"; durationLine "90"; whereLine "alpha"])
  else Missing.

(** C2 (the code departs from it): run on Friday 2024-03-08 with the week
    count 1, the directory with the session block without a duration loses
    the whole following day, whose file is never read, while the directory
    without that block counts it: the daily totals, the per-project totals,
    the total and the longest streak all differ. *)
Theorem C2_zero_duration_session_skips_next_day :
  exists r1 r2,
    run 19790 1 fsWithZero = Some r1
    /\ run 19790 1 fsZeroRemoved = Some r2
    /\ dailyMinutes r1 !! 19786 = Some 30%N
    /\ dailyMinutes r2 !! 19786 = Some 30%N
    /\ dailyMinutes r1 !! 19787 = None
    /\ dailyMinutes r2 !! 19787 = Some 90%N
    /\ allProjects (stats r1) = [(lit "beta", 30%N)]
    /\ allProjects (stats r2) = [(lit "beta", 30%N); (lit "alpha", 90%N)]
    /\ totalMinutes (stats r1) = 30%N
    /\ totalMinutes (stats r2) = 120%N
    /\ longestStreak (stats r1) = 1%N
    /\ longestStreak (stats r2) = 2%N.
Proof.
  do 2 eexists. split; [vm_compute; reflexivity|].
  split; [vm_compute; reflexivity|].
  vm_compute. repeat split; reflexivity.
Qed.

(** ** Reading an object after a write *)

Lemma objGet_objUpdate k v o q :
  is_Some (objGet k o) ->
  objGet q (objUpdate k v o) = if bool_decide (q = k) then Some v else objGet q o.
Proof.
  induction o as [|[k' v'] o IH]; simpl; intros Hk.
  - by destruct Hk.
  - destruct (bool_decide_reflect (k = k')) as [->|Hne]; simpl.
    + by destruct (bool_decide (q = k')).
    + rewrite IH by done.
      destruct (bool_decide_reflect (q = k')) as [->|Hq]; [|done].
      by rewrite bool_decide_eq_false_2.
Qed.

Lemma objGet_objInsertIndex k v o q :
  objGet k o = None ->
  objGet q (objInsertIndex k v o)
  = if bool_decide (q = k) then Some v else objGet q o.
Proof.
  induction o as [|[k' v'] o IH]; simpl; intros Hk; [done|].
  destruct (bool_decide_reflect (k = k')) as [->|Hne]; [done|].
  destruct (isArrayIndex k' && _); simpl; [|done].
  rewrite IH by done.
  destruct (bool_decide_reflect (q = k')) as [->|Hq]; [|done].
  by rewrite bool_decide_eq_false_2.
Qed.

Lemma objGet_snoc k v o q :
  objGet k o = None ->
  objGet q (o ++ [(k, v)]) = if bool_decide (q = k) then Some v else objGet q o.
Proof.
  induction o as [|[k' v'] o IH]; simpl; intros Hk; [done|].
  destruct (bool_decide_reflect (k = k')) as [->|Hne]; [done|].
  rewrite IH by done.
  destruct (bool_decide_reflect (q = k')) as [->|Hq]; [|done].
  by rewrite bool_decide_eq_false_2.
Qed.

Lemma objGet_objSet k v o q :
  objGet q (objSet k v o) = if bool_decide (q = k) then Some v else objGet q o.
Proof.
  unfold objSet. destruct (objGet k o) eqn:Hk.
  - apply objGet_objUpdate. by rewrite Hk.
  - destruct (isArrayIndex k).
    + by apply objGet_objInsertIndex.
    + by apply objGet_snoc.
Qed.

(** [o[k] || 0] *)
Definition objMinutes (k : jsstring) (o : obj) : N := default 0%N (objGet k o).

Lemma objMinutes_objAdd k m o q :
  objMinutes q (objAdd k m o)
  = (objMinutes q o + if bool_decide (q = k) then m else 0)%N.
Proof.
  unfold objMinutes, objAdd. rewrite objGet_objSet.
  destruct (bool_decide_reflect (q = k)) as [->|Hq]; simpl; lia.
Qed.

(** ** Where a file's sessions are credited *)

(** The minutes of a list of sessions, and those of them under one label. *)
Definition sumMinutes (ss : list Session) : N :=
  fold_right (fun s acc => (durationMin s + acc)%N) 0%N ss.

Definition sumLabel (p : jsstring) (ss : list Session) : N :=
  fold_right
    (fun s acc =>
       ((if bool_decide (truthyLabel (project s) = Some p)
         then durationMin s else 0) + acc)%N)
    0%N ss.

(** [(projectsByDate[ds] || {})[p] || 0] *)
Definition projectMinutesOn (pbd : gmap Z obj) (ds : Z) (p : jsstring) : N :=
  objMinutes p (default [] (pbd !! ds)).

Lemma loadSession_credit dateStr st s p :
  minutesOn (minutesByDate (loadSession dateStr st s)) dateStr
  = (minutesOn (minutesByDate st) dateStr + durationMin s)%N
  /\ projectMinutesOn (projectsByDate (loadSession dateStr st s)) dateStr p
     = (projectMinutesOn (projectsByDate st) dateStr p
        + if bool_decide (truthyLabel (project s) = Some p)
          then durationMin s else 0)%N.
Proof.
  unfold loadSession, minutesOn, projectMinutesOn.
  destruct (N.eqb_spec (durationMin s) 0) as [->|Hd];
    cbn [minutesByDate projectsByDate].
  - split; [lia|]. destruct (bool_decide _); lia.
  - destruct (truthyLabel (project s)) as [p'|];
      cbn [minutesByDate projectsByDate];
      rewrite ?lookup_insert_eq; cbn [from_option id]; (split; [done|]).
    + rewrite objMinutes_objAdd. f_equal.
      repeat case_bool_decide; congruence.
    + case_bool_decide; [done|lia].
Qed.

Lemma loadSessions_credit dateStr ss st p :
  minutesOn (minutesByDate (fold_left (loadSession dateStr) ss st)) dateStr
  = (minutesOn (minutesByDate st) dateStr + sumMinutes ss)%N
  /\ projectMinutesOn
       (projectsByDate (fold_left (loadSession dateStr) ss st)) dateStr p
     = (projectMinutesOn (projectsByDate st) dateStr p + sumLabel p ss)%N.
Proof.
  revert st. induction ss as [|s ss IH]; intros st; simpl.
  - split; lia.
  - destruct (IH (loadSession dateStr st s)) as [-> ->].
    destruct (loadSession_credit dateStr st s p) as [-> ->]. split; lia.
Qed.

(** The same session under another header date. *)
Definition redate (f : Session -> jsstring) (s : Session) : Session :=
  mkSession (f s) (durationMin s) (project s).

Lemma loadSessions_redate dateStr f ss st :
  fold_left (loadSession dateStr) (redate f <$> ss) st
  = fold_left (loadSession dateStr) ss st.
Proof.
  revert st. induction ss as [|s ss IH]; intros st; simpl; [done|].
  rewrite <- IH. done.
Qed.

(** C10: the sessions read from the file of a date are credited to that date:
    the date's minutes grow by the minutes of all the sessions and, for each
    label, the date's minutes under it grow by those of the sessions carrying
    it; no other date is touched; and the result is the same whatever dates
    the sessions' own header lines carry. *)
Theorem C10_sessions_credited_to_file_date
  (dateStr : Z) (ss : list Session) (st : LoadState) :
  let st' := fold_left (loadSession dateStr) ss st in
  minutesOn (minutesByDate st') dateStr
  = (minutesOn (minutesByDate st) dateStr + sumMinutes ss)%N
  /\ (forall p,
        projectMinutesOn (projectsByDate st') dateStr p
        = (projectMinutesOn (projectsByDate st) dateStr p + sumLabel p ss)%N)
  /\ (forall k,
        k <> dateStr ->
        minutesByDate st' !! k = minutesByDate st !! k
        /\ projectsByDate st' !! k = projectsByDate st !! k)
  /\ (forall f, fold_left (loadSession dateStr) (redate f <$> ss) st = st').
Proof.
  intros st'. subst st'. repeat split.
  - apply (loadSessions_credit dateStr ss st []).
  - intros p. apply (loadSessions_credit dateStr ss st p).
  - by apply loadSessions_other.
  - by apply loadSessions_other.
  - intros f. apply loadSessions_redate.
Qed.
